(** * convert_to_rgba.py: a shallow embedding of the icon conversion script

    Source: src-tauri/icons/convert_to_rgba.py.

    The script imports Pillow at module level (line 3), then in one
    [try] block opens [app_icon.png], converts it to RGBA unless its mode is
    already ["RGBA"], saves it as PNG to [app_icon_rgba.png], prints a
    success line, re-opens the output and prints its mode and size.  The
    handlers print a message and call [sys.exit(1)].

    The part of Pillow the script calls ([Image.open], [Image.convert],
    [Image.save]) is modelled below on rasters: a mode, a size, a pixel
    buffer and the [info["transparency"]] entry that Pillow's PNG reader
    fills from a [tRNS] chunk.  The modes covered are the ones Pillow's
    PNG reader yields for 8-bit files ("1", "L", "LA", "P", "RGB", "RGBA").
    The filesystem is a [gmap] from paths to files; the environment decides
    which library calls raise (missing Pillow, a failing write, an
    unreadable output file). *)

From Stdlib Require Import ZArith.
From stdpp Require Import base gmap strings list pretty.

Open Scope Z_scope.

(** ** Rasters (Pillow [Image] objects) *)

Inductive Mode := Mode1 | ModeL | ModeLA | ModeP | ModeRGB | ModeRGBA.

(** [Image.mode], the string the script compares with ['RGBA']. *)
Definition mode_name (m : Mode) : string :=
  match m with
  | Mode1 => "1" | ModeL => "L" | ModeLA => "LA"
  | ModeP => "P" | ModeRGB => "RGB" | ModeRGBA => "RGBA"
  end.

(** A mode whose pixels carry an alpha band. *)
Definition has_alpha (m : Mode) : bool :=
  match m with
  | ModeLA | ModeRGBA => true
  | _ => false
  end.

(** A pixel is the list of its band values (one index for "P"). *)
Definition Pixel := list Z.

Record Raster := mkRaster {
  mode : Mode;
  width : nat;
  height : nat;
  pixels : list Pixel;          (** row-major, [width * height] entries *)
  palette : list Pixel;         (** RGB triples, used by "P" *)
  transparency : option (list Z)
    (** [info["transparency"]]: the transparent grey value ("1", "L"),
        the transparent RGB colour ("RGB"), or the alpha of each palette
        index ("P"), as read from a PNG [tRNS] chunk *)
}.

Definition band (px : Pixel) (i : nat) : Z := nth i px 0.

(** Alpha given to a pixel of a mode without alpha band when the image
    declares a transparent colour [t]: 0 on that colour, 255 elsewhere. *)
Definition trns_alpha (trns : option (list Z)) (key : list Z) : Z :=
  match trns with
  | Some t => if decide (t = key) then 0 else 255
  | None => 255
  end.

(** Alpha of palette index [i]: the [tRNS] entry, 255 past its end. *)
Definition palette_alpha (trns : option (list Z)) (i : Z) : Z :=
  match trns with
  | Some t => nth (Z.to_nat i) t 255
  | None => 255
  end.

Definition convert_pixel_rgba (r : Raster) (px : Pixel) : Pixel :=
  match mode r with
  | Mode1 | ModeL =>
      let v := band px 0 in [v; v; v; trns_alpha (transparency r) [v]]
  | ModeLA =>
      let v := band px 0 in [v; v; v; band px 1]
  | ModeP =>
      let i := band px 0 in
      let c := nth (Z.to_nat i) (palette r) [0; 0; 0] in
      [band c 0; band c 1; band c 2; palette_alpha (transparency r) i]
  | ModeRGB =>
      let c := [band px 0; band px 1; band px 2] in
      c ++ [trns_alpha (transparency r) c]
  | ModeRGBA => px
  end.

(** [img.convert('RGBA')]: same size, every pixel converted; the
    transparency entry is consumed ([del new_im.info["transparency"]]). *)
Definition convert_rgba (r : Raster) : Raster :=
  {| mode := ModeRGBA;
     width := width r;
     height := height r;
     pixels := map (convert_pixel_rgba r) (pixels r);
     palette := [];
     transparency := None |}.

(** Lines 11-12: [if img.mode != 'RGBA': img = img.convert('RGBA')]. *)
Definition prepare (img : Raster) : Raster :=
  if negb (String.eqb (mode_name (mode img)) "RGBA")
  then convert_rgba img else img.

(** ** Files, the filesystem and the environment *)

(** Container format of a file, found by Pillow from its content. *)
Inductive Format := PNG | JPEG | GIF | BMP.

Inductive Content :=
| Decodable (r : Raster)     (** a file Pillow identifies and decodes to [r] *)
| Corrupt.                   (** a file Pillow cannot identify *)

Record File := mkFile { fmt : Format; content : Content }.

Abbreviation FS := (gmap string File).

Definition src_path : string := "app_icon.png".
Definition dst_path : string := "app_icon_rgba.png".

(** What is left at the destination when [img.save] raises. *)
Inductive SaveFault :=
| SaveFailKeep                 (** the file could not be opened for writing *)
| SaveFailRemove               (** created, then removed by Pillow *)
| SaveFailPartial (f : File).  (** a partial file is left *)

Record Env := mkEnv {
  pil_available : bool;        (** [from PIL import Image] succeeds *)
  fs0 : FS;                    (** the working directory at start *)
  save_fault : option SaveFault;
  reopen_fault : bool          (** re-opening the output raises [OSError],
                                   e.g. a umask leaving it unreadable *)
}.

(** ** Python exceptions, output and the effect log *)

Inductive Exn :=
| ImportError (msg : string)
| FileNotFoundError (msg : string)
| UnidentifiedImageError (msg : string)
| OSError (msg : string).

Definition exn_msg (e : Exn) : string :=
  match e with
  | ImportError m | FileNotFoundError m
  | UnidentifiedImageError m | OSError m => m
  end.

Inductive Output :=
| Stdout (line : string)               (** a [print] line *)
| Traceback (e : Exn).                 (** an uncaught exception on stderr *)

(** Filesystem operations and conversions, in the order performed. *)
Inductive Event := EvRead (p : string) | EvWrite (p : string) | EvConvert.

Record St := mkSt { st_fs : FS; st_out : list Output; st_log : list Event }.

(** A state and exception monad for the body of the [try] block. *)
Inductive Res (A : Type) := Ok (a : A) | Raise (e : Exn).
Arguments Ok {A} a.
Arguments Raise {A} e.

Definition M (A : Type) := St -> Res A * St.

Definition retM {A} (a : A) : M A := fun s => (Ok a, s).
Definition raiseM {A} (e : Exn) : M A := fun s => (Raise e, s).
Definition bindM {A B} (c : M A) (k : A -> M B) : M B := fun s =>
  match c s with
  | (Ok a, s') => k a s'
  | (Raise e, s') => (Raise e, s')
  end.

Notation "'let!' x := c 'in' k" := (bindM c (fun x => k))
  (at level 200, x pattern, c at level 100, k at level 200).

Definition log (ev : Event) : M unit := fun s =>
  (Ok tt, {| st_fs := st_fs s; st_out := st_out s; st_log := st_log s ++ [ev] |}).

Definition print (line : string) : M unit := fun s =>
  (Ok tt, {| st_fs := st_fs s; st_out := st_out s ++ [Stdout line]; st_log := st_log s |}).

Definition set_fs (fs : FS) : M unit := fun s =>
  (Ok tt, {| st_fs := fs; st_out := st_out s; st_log := st_log s |}).

Definition get_fs : M FS := fun s => (Ok (st_fs s), s).

(** ** Pillow calls *)

(** [Image.open(p)]: [FileNotFoundError] when [p] is absent,
    [UnidentifiedImageError] when its content is not an image; [denied]
    stands for an [OSError] raised by the operating system on opening. *)
Definition image_open (denied : bool) (p : string) : M Raster :=
  let! _ := log (EvRead p) in
  let! fs := get_fs in
  if denied then raiseM (OSError ("[Errno 13] Permission denied: '" ++ p ++ "'")%string)
  else match fs !! p with
  | None => raiseM (FileNotFoundError
             ("[Errno 2] No such file or directory: '" ++ p ++ "'")%string)
  | Some f =>
      match content f with
      | Corrupt => raiseM (UnidentifiedImageError
                     ("cannot identify image file '" ++ p ++ "'")%string)
      | Decodable r => retM r
      end
  end.

(** [img.convert('RGBA')]. *)
Definition image_convert_rgba (img : Raster) : M Raster :=
  let! _ := log EvConvert in retM (convert_rgba img).

(** [img.save(p, format)]: writes [p]; a fault raises [OSError] after
    leaving at [p] what the fault says. *)
Definition image_save (fault : option SaveFault) (img : Raster)
    (p : string) (format : Format) : M unit :=
  let! _ := log (EvWrite p) in
  let! fs := get_fs in
  match fault with
  | None => set_fs (<[p := mkFile format (Decodable img)]> fs)
  | Some SaveFailKeep =>
      raiseM (OSError ("[Errno 13] Permission denied: '" ++ p ++ "'")%string)
  | Some SaveFailRemove =>
      let! _ := set_fs (delete p fs) in raiseM (OSError "[Errno 28] No space left on device")
  | Some (SaveFailPartial f) =>
      let! _ := set_fs (<[p := f]> fs) in raiseM (OSError "[Errno 28] No space left on device")
  end.

(** [str(img.size)], e.g. ["(512, 512)"]. *)
Definition size_str (r : Raster) : string :=
  ("(" ++ pretty (N.of_nat (width r)) ++ ", " ++ pretty (N.of_nat (height r)) ++ ")")%string.

(** ** The script *)

(** Lines 11-12 as an effect. *)
Definition convert_step (img : Raster) : M Raster :=
  if negb (String.eqb (mode_name (mode img)) "RGBA")
  then image_convert_rgba img else retM img.

(** Lines 7-21, the body of the [try] block. *)
Definition try_body (env : Env) : M unit :=
  let! img := image_open false src_path in
  let! img := convert_step img in
  let! _ := image_save (save_fault env) img dst_path PNG in
  let! _ := print "Successfully converted to RGBA format" in
  let! test_img := image_open (reopen_fault env) dst_path in
  let! _ := print ("New image mode: " ++ mode_name (mode test_img))%string in
  print ("New image size: " ++ size_str test_img)%string.

Record Outcome := mkOutcome {
  exit_code : Z;
  final_fs : FS;
  out : list Output;
  events : list Event
}.

Definition install_guidance : string :=
  "PIL not available - please install Pillow: pip install Pillow".

(** The whole process.  Line 3 ([from PIL import Image]) runs before the
    [try]: when Pillow is missing its [ImportError] is not caught, Python
    prints the traceback and exits with status 1.  Inside the [try], an
    [ImportError] goes to the first handler and any other exception to the
    second; both print and call [sys.exit(1)]. *)
Definition run (env : Env) : Outcome :=
  if negb (pil_available env) then
    mkOutcome 1 (fs0 env) [Traceback (ImportError "No module named 'PIL'")] []
  else
    match try_body env (mkSt (fs0 env) [] []) with
    | (Ok _, s) => mkOutcome 0 (st_fs s) (st_out s) (st_log s)
    | (Raise (ImportError _), s) =>
        mkOutcome 1 (st_fs s) (st_out s ++ [Stdout install_guidance]) (st_log s)
    | (Raise e, s) =>
        mkOutcome 1 (st_fs s) (st_out s ++ [Stdout ("Error: " ++ exn_msg e)%string]) (st_log s)
    end.

(** ** Sample inputs *)

Definition rgb_2x1 : Raster :=
  mkRaster ModeRGB 2 1 [[10; 20; 30]; [40; 50; 60]] [] None.

Definition env_ok (r : Raster) : Env :=
  mkEnv true {[ src_path := mkFile PNG (Decodable r) ]} None false.

Example run_rgb_out :
  out (run (env_ok rgb_2x1)) =
    [Stdout "Successfully converted to RGBA format";
     Stdout "New image mode: RGBA"; Stdout "New image size: (2, 1)"].
Proof. vm_compute. reflexivity. Qed.

(** ** Predicates used in the statements *)

Global Instance Event_eq_dec : EqDecision Event.
Proof. solve_decision. Defined.

(** An error report: an ["Error: ..."] line or an uncaught traceback. *)
Definition error_report (o : Output) : Prop :=
  match o with
  | Stdout line => String.prefix "Error: " line = true
  | Traceback _ => True
  end.

(** The environment lets every step of lines 3-21 go through. *)
Definition run_completes (env : Env) : Prop :=
  pil_available env = true /\
  (exists fm r, fs0 env !! src_path = Some (mkFile fm (Decodable r))) /\
  save_fault env = None /\ reopen_fault env = false.

(** ** Proof automation *)

Ltac step := cbn -[insert delete lookup gmap_lookup gmap_partial_alter map_insert map_delete In] in *.

(** Unfold [run] and split on every decision the environment makes. *)
Ltac run_cases env :=
  destruct env as [pil fs sf rf];
  unfold run, try_body, image_open, convert_step, image_convert_rgba,
    image_save, print, log, set_fs, get_fs, bindM, retM, raiseM in *;
  step;
  destruct pil; step;
  [ destruct (fs !! src_path) as [[fm0 [r0|]]|] eqn:Hsrc; step;
    [ destruct (mode r0) eqn:Hmode; step;
      destruct sf as [[| |f]|]; step;
      repeat rewrite lookup_insert_eq in *; step;
      try destruct rf; step; repeat (rewrite lookup_insert_eq in *)
    | | ]
  | ].

Lemma src_dst_ne : src_path <> dst_path.
Proof. discriminate. Qed.

Lemma dst_src_ne : dst_path <> src_path.
Proof. discriminate. Qed.

(** More sample inputs: a grey image with alpha, a JPEG source, and an
    RGB image whose [tRNS] chunk declares black transparent. *)
Definition la_raster : Raster := mkRaster ModeLA 1 1 [[10; 20]] [] None.

Definition env_jpeg : Env :=
  mkEnv true {[ src_path := mkFile JPEG (Decodable rgb_2x1) ]} None false.

Definition rgb_trns : Raster :=
  mkRaster ModeRGB 1 1 [[0; 0; 0]] [] (Some [0; 0; 0]).

Definition env_no_pil : Env :=
  mkEnv false {[ src_path := mkFile PNG (Decodable rgb_2x1) ]} None false.

Lemma prepare_mode (r : Raster) : mode (prepare r) = ModeRGBA.
Proof. unfold prepare; destruct (mode r) eqn:Hm; cbn; rewrite ?Hm; reflexivity. Qed.

(** When the source decodes and the write succeeds, the destination holds
    [prepare r] as a PNG file. *)
Lemma saved_raster (env : Env) (fm : Format) (r : Raster) :
  pil_available env = true ->
  fs0 env !! src_path = Some (mkFile fm (Decodable r)) ->
  save_fault env = None ->
  final_fs (run env) !! dst_path = Some (mkFile PNG (Decodable (prepare r))).
Proof.
  intros Hp Hs Hf. revert Hp Hs Hf.
  run_cases env; intros Hp Hs Hf; try discriminate;
    injection Hs as <- <-; unfold prepare; rewrite Hmode; reflexivity.
Qed.

(** ** Claims *)

(** C1: after every run that exits with status 0, the image saved at
    [app_icon_rgba.png] has a mode with an alpha channel. *)
Theorem C1_success_output_has_alpha (env : Env) :
  exit_code (run env) = 0 ->
  exists r, final_fs (run env) !! dst_path = Some (mkFile PNG (Decodable r)) /\
            has_alpha (mode r) = true.
Proof.
  intros H; run_cases env; try discriminate;
    (eexists; split; [reflexivity | rewrite ?Hmode; reflexivity]).
Qed.

Lemma C1_witness :
  exit_code (run (env_ok rgb_2x1)) = 0 /\
  exists r, final_fs (run (env_ok rgb_2x1)) !! dst_path = Some (mkFile PNG (Decodable r)) /\
            has_alpha (mode r) = true.
Proof.
  split; [vm_compute; reflexivity|].
  apply C1_success_output_has_alpha. vm_compute. reflexivity.
Defined.

(** C5: when [app_icon.png] does not exist, the process exits with
    status 1, reports an error, never writes [app_icon_rgba.png] and leaves
    the filesystem as it was. *)
Theorem C5_missing_source (env : Env) :
  fs0 env !! src_path = None ->
  exit_code (run env) = 1 /\ final_fs (run env) = fs0 env /\
  ~ In (EvWrite dst_path) (events (run env)) /\
  Exists error_report (out (run env)).
Proof.
  intros H; run_cases env; try congruence;
    (split; [reflexivity|split; [reflexivity|split]]);
    [ intros [Hc|[]]; discriminate | repeat constructor
    | intros []
    | repeat constructor ].
Qed.

Definition env_no_src : Env := mkEnv true ∅ None false.

Lemma C5_witness :
  fs0 env_no_src !! src_path = None /\
  exit_code (run env_no_src) = 1 /\ final_fs (run env_no_src) = fs0 env_no_src /\
  ~ In (EvWrite dst_path) (events (run env_no_src)) /\
  Exists error_report (out (run env_no_src)).
Proof.
  split; [reflexivity|]. apply C5_missing_source. reflexivity.
Defined.

(** C8: the process exits with status 0 exactly when the environment lets
    the whole open-convert-save-verify sequence go through, and with
    status 1 otherwise; no filesystem operation or conversion is performed
    twice, so nothing is retried. *)
Theorem C8_exit_status (env : Env) :
  (exit_code (run env) = 0 <-> run_completes env) /\
  (exit_code (run env) = 0 \/ exit_code (run env) = 1) /\
  NoDup (events (run env)).
Proof.
  unfold run_completes.
  run_cases env;
    (split; [split|split]);
    try (intros ?; discriminate);
    try (intros [? [[? [? ?]] [? ?]]]; congruence);
    try (intros; repeat split; eauto; fail);
    try (left; reflexivity); try (right; reflexivity);
    try (apply (bool_decide_unpack _); reflexivity);
    try constructor.
Qed.

(** The conversion of [rgb_2x1] in an environment where re-opening the
    written output fails (the output is not readable). *)
Definition env_unreadable_output : Env :=
  mkEnv true {[ src_path := mkFile PNG (Decodable rgb_2x1) ]} None true.

(** C9: there is a run that prints the success line and leaves a valid
    RGBA PNG at [app_icon_rgba.png], and still exits with status 1: the
    success line comes before the verification re-open, whose failure
    goes to the generic handler. *)
Theorem C9_success_line_then_exit_1 :
  exists env : Env,
    In (Stdout "Successfully converted to RGBA format") (out (run env)) /\
    (exists r, final_fs (run env) !! dst_path = Some (mkFile PNG (Decodable r)) /\
               mode r = ModeRGBA) /\
    exit_code (run env) = 1.
Proof.
  exists env_unreadable_output. split; [|split].
  - vm_compute. left. reflexivity.
  - exists (convert_rgba rgb_2x1). split; reflexivity.
  - reflexivity.
Qed.

(** C10: in every run, [app_icon.png] is never written, the only path
    written is [app_icon_rgba.png], and every other path, the source
    included, ends as it started. *)
Theorem C10_only_destination_written (env : Env) :
  (forall p, In (EvWrite p) (events (run env)) -> p = dst_path) /\
  ~ In (EvWrite src_path) (events (run env)) /\
  (forall p, p <> dst_path -> final_fs (run env) !! p = fs0 env !! p).
Proof.
  assert (Hw : forall l : list Event,
             (forall p, In (EvWrite p) l -> p = dst_path) ->
             ~ In (EvWrite src_path) l).
  { intros l Hl Hin. apply Hl in Hin. exact (src_dst_ne Hin). }
  assert (Hgen : forall l : list Event, forall fs fs' : FS,
             (forall p, In (EvWrite p) l -> p = dst_path) ->
             (forall p, p <> dst_path -> fs' !! p = fs !! p) ->
             (forall p, In (EvWrite p) l -> p = dst_path) /\
             ~ In (EvWrite src_path) l /\
             (forall p, p <> dst_path -> fs' !! p = fs !! p)).
  { intros l fs fs' H1 H2. split; [exact H1|]. split; [apply Hw, H1|exact H2]. }
  apply Hgen.
  - run_cases env; intros p Hp; simpl in Hp; intuition congruence.
  - run_cases env;
    try (intros p Hp; reflexivity);
    try (intros p Hp; rewrite lookup_insert_ne by congruence; reflexivity);
    try (intros p Hp; rewrite lookup_delete_ne by congruence; reflexivity).
Qed.

(** C2 (as the code runs): when Pillow is missing, the [ImportError] of
    line 3 is raised outside the [try], so the install guidance of the
    [except ImportError] handler is never printed; Python prints a
    traceback and exits with status 1, and no file operation happens. *)
Theorem C2_missing_pil_uncaught (env : Env) :
  pil_available env = false ->
  exit_code (run env) = 1 /\ events (run env) = [] /\
  final_fs (run env) = fs0 env /\
  out (run env) = [Traceback (ImportError "No module named 'PIL'")] /\
  ~ In (Stdout install_guidance) (out (run env)).
Proof.
  intros Hp. unfold run. rewrite Hp. cbn.
  repeat split; try reflexivity. intros [H|[]]. discriminate.
Qed.

Lemma C2_witness :
  pil_available env_no_pil = false /\
  exit_code (run env_no_pil) = 1 /\ events (run env_no_pil) = [] /\
  final_fs (run env_no_pil) = fs0 env_no_pil /\
  out (run env_no_pil) = [Traceback (ImportError "No module named 'PIL'")] /\
  ~ In (Stdout install_guidance) (out (run env_no_pil)).
Proof. split; [reflexivity|]. apply C2_missing_pil_uncaught. reflexivity. Defined.

(** C3 (as stated, refuted): an "LA" image carries alpha, yet the script
    converts it. *)
Lemma C3_counterexample :
  ~ (forall (env : Env) (fm : Format) (r : Raster),
       pil_available env = true ->
       fs0 env !! src_path = Some (mkFile fm (Decodable r)) ->
       (In EvConvert (events (run env)) <-> has_alpha (mode r) = false)).
Proof.
  intros H.
  specialize (H (env_ok la_raster) PNG la_raster eq_refl eq_refl).
  assert (Hin : In EvConvert (events (run (env_ok la_raster)))).
  { vm_compute. right. left. reflexivity. }
  apply H in Hin. discriminate.
Qed.

(** C3 (amended): once the source is decoded, the conversion runs exactly
    when the mode is not ["RGBA"]; every other mode, alpha-carrying ones
    such as "LA" included, is converted. *)
Theorem C3_convert_iff_not_rgba (env : Env) (fm : Format) (r : Raster) :
  pil_available env = true ->
  fs0 env !! src_path = Some (mkFile fm (Decodable r)) ->
  (In EvConvert (events (run env)) <-> mode r <> ModeRGBA).
Proof.
  intros Hp Hs. revert Hp Hs.
  run_cases env; intros Hp Hs; try discriminate;
    injection Hs as <- <-; rewrite Hmode;
    (split; intros Hin; [ try (intros Hm; discriminate Hm);
                          simpl in Hin; intuition discriminate
                        | try (exfalso; apply Hin; reflexivity);
                          simpl; auto ]).
Qed.

Lemma C3_witness :
  pil_available (env_ok la_raster) = true /\
  fs0 (env_ok la_raster) !! src_path = Some (mkFile PNG (Decodable la_raster)) /\
  (In EvConvert (events (run (env_ok la_raster))) <-> mode la_raster <> ModeRGBA).
Proof.
  split; [reflexivity|]. split; [reflexivity|].
  apply (C3_convert_iff_not_rgba (env_ok la_raster) PNG la_raster); reflexivity.
Defined.

(** C4 (as stated, refuted): a source that decodes as JPEG is written as
    PNG, not in its own container format. *)
Lemma C4_counterexample :
  ~ (forall (env : Env) (fm : Format) (r : Raster),
       pil_available env = true ->
       fs0 env !! src_path = Some (mkFile fm (Decodable r)) ->
       save_fault env = None ->
       exists c, final_fs (run env) !! dst_path = Some (mkFile fm c)).
Proof.
  intros H.
  destruct (H env_jpeg JPEG rgb_2x1 eq_refl eq_refl eq_refl) as [c Hc].
  vm_compute in Hc. discriminate.
Qed.

(** C4 (amended): whatever the container format of the decoded source,
    the result is written to [app_icon_rgba.png] as PNG (the format is
    fixed in the call to [save]). *)
Theorem C4_saved_as_png (env : Env) (fm : Format) (r : Raster) :
  pil_available env = true ->
  fs0 env !! src_path = Some (mkFile fm (Decodable r)) ->
  save_fault env = None ->
  exists c, final_fs (run env) !! dst_path = Some (mkFile PNG c).
Proof.
  intros Hp Hs Hf. exists (Decodable (prepare r)). exact (saved_raster env fm r Hp Hs Hf).
Qed.

Lemma C4_witness :
  pil_available env_jpeg = true /\
  fs0 env_jpeg !! src_path = Some (mkFile JPEG (Decodable rgb_2x1)) /\
  save_fault env_jpeg = None /\
  exists c, final_fs (run env_jpeg) !! dst_path = Some (mkFile PNG c).
Proof.
  split; [reflexivity|]. split; [reflexivity|]. split; [reflexivity|].
  apply (C4_saved_as_png env_jpeg JPEG rgb_2x1); reflexivity.
Defined.

(** C6 (as stated, refuted): an RGB image whose [tRNS] chunk declares
    black transparent has no alpha band, and its black pixel gets alpha 0
    in the converted raster, not full opacity. *)
Lemma C6_counterexample :
  ~ (forall r : Raster,
       has_alpha (mode r) = false ->
       has_alpha (mode (prepare r)) = true /\
       width (prepare r) = width r /\ height (prepare r) = height r /\
       Forall (fun px => band px 3 = 255) (pixels (prepare r))).
Proof.
  intros H. destruct (H rgb_trns eq_refl) as [_ [_ [_ Hall]]].
  vm_compute in Hall. inversion Hall as [|x l Hx]. discriminate.
Qed.

(** C6 (amended): converting an image whose mode has no alpha band gives
    an RGBA raster of the same size with one output pixel per input pixel;
    when the image declares no transparent colour (no [tRNS] chunk), every
    output pixel is fully opaque. *)
Theorem C6_no_alpha_input (r : Raster) :
  has_alpha (mode r) = false ->
  has_alpha (mode (prepare r)) = true /\
  width (prepare r) = width r /\ height (prepare r) = height r /\
  length (pixels (prepare r)) = length (pixels r) /\
  (transparency r = None -> Forall (fun px => band px 3 = 255) (pixels (prepare r))).
Proof.
  intros Ha.
  assert (Hc : prepare r = convert_rgba r).
  { unfold prepare; destruct (mode r); try discriminate Ha; reflexivity. }
  rewrite Hc. cbn. split; [reflexivity|]. split; [reflexivity|].
  split; [reflexivity|]. split; [apply length_map|].
  intros Ht. apply Forall_forall. intros px Hpx.
  apply list_elem_of_In, in_map_iff in Hpx as [q [<- _]].
  unfold convert_pixel_rgba, trns_alpha, palette_alpha.
  rewrite Ht. destruct (mode r); try discriminate Ha; reflexivity.
Qed.

Lemma C6_witness :
  has_alpha (mode rgb_2x1) = false /\
  has_alpha (mode (prepare rgb_2x1)) = true /\
  width (prepare rgb_2x1) = width rgb_2x1 /\ height (prepare rgb_2x1) = height rgb_2x1 /\
  length (pixels (prepare rgb_2x1)) = length (pixels rgb_2x1) /\
  (transparency rgb_2x1 = None ->
   Forall (fun px => band px 3 = 255) (pixels (prepare rgb_2x1))).
Proof. split; [reflexivity|]. apply C6_no_alpha_input. reflexivity. Defined.

(** C7 (as stated, refuted): an "LA" image carries alpha, but its pixel
    data changes, since it is converted to RGBA. *)
Lemma C7_counterexample :
  ~ (forall r : Raster,
       has_alpha (mode r) = true ->
       pixels (prepare r) = pixels r /\ prepare (prepare r) = prepare r).
Proof.
  intros H. destruct (H la_raster eq_refl) as [Hp _].
  vm_compute in Hp. discriminate.
Qed.

(** C7 (amended): an image whose mode is exactly RGBA goes through
    unchanged, and for every input, applying lines 11-12 to their own
    output changes nothing. *)
Theorem C7_rgba_passthrough_idempotent :
  (forall r : Raster, mode r = ModeRGBA -> prepare r = r) /\
  (forall r : Raster, prepare (prepare r) = prepare r).
Proof.
  split.
  - intros r Hm. unfold prepare. rewrite Hm. reflexivity.
  - intros r. unfold prepare at 1. rewrite prepare_mode. reflexivity.
Qed.

(** ** Further properties of the script *)

Definition success_line : string := "Successfully converted to RGBA format".

Lemma size_str_prepare (r : Raster) : size_str (prepare r) = size_str r.
Proof. unfold prepare; destruct (negb _); reflexivity. Qed.

(** On a run where every step succeeds, the output is exactly the success
    line, the mode ["RGBA"] and the size of the source image (lines 16,
    20, 21), whatever the source mode. *)
Theorem X_success_stdout (env : Env) (fm : Format) (r : Raster) :
  pil_available env = true ->
  fs0 env !! src_path = Some (mkFile fm (Decodable r)) ->
  save_fault env = None -> reopen_fault env = false ->
  out (run env) =
    [Stdout success_line; Stdout "New image mode: RGBA";
     Stdout ("New image size: " ++ size_str r)%string].
Proof.
  intros Hp Hs Hf Hr. revert Hp Hs Hf Hr.
  run_cases env; intros Hp Hs Hf Hr; try discriminate;
    injection Hs as <- <-;
    rewrite <- (size_str_prepare r0); unfold prepare; rewrite Hmode; reflexivity.
Qed.

Lemma X_success_stdout_witness :
  pil_available (env_ok la_raster) = true /\
  fs0 (env_ok la_raster) !! src_path = Some (mkFile PNG (Decodable la_raster)) /\
  save_fault (env_ok la_raster) = None /\ reopen_fault (env_ok la_raster) = false /\
  out (run (env_ok la_raster)) =
    [Stdout success_line; Stdout "New image mode: RGBA";
     Stdout ("New image size: " ++ size_str la_raster)%string].
Proof.
  do 4 (split; [reflexivity|]).
  apply (X_success_stdout _ PNG); reflexivity.
Defined.

(** No Pillow call inside the [try] raises [ImportError], and a missing
    Pillow fails before the [try]: the install guidance of lines 23-24 is
    printed in no run at all. *)
Theorem X_guidance_never_printed (env : Env) :
  ~ In (Stdout install_guidance) (out (run env)).
Proof.
  run_cases env; simpl; intuition discriminate.
Qed.

(** With Pillow available, a failed run prints at most the success line
    and then exactly one line ["Error: <message>"] (lines 26-28). *)
Theorem X_failure_stdout (env : Env) :
  pil_available env = true -> exit_code (run env) = 1 ->
  exists (pre : list Output) (msg : string),
    (pre = [] \/ pre = [Stdout success_line]) /\
    out (run env) = pre ++ [Stdout ("Error: " ++ msg)%string].
Proof.
  intros Hp Hx. revert Hp Hx.
  run_cases env; intros Hp Hx; try discriminate.
  all: first [ exists []; eexists; split; [left; reflexivity | reflexivity]
              | exists [Stdout success_line]; eexists;
                split; [right; reflexivity | reflexivity] ].
Qed.

Definition env_corrupt : Env :=
  mkEnv true {[ src_path := mkFile PNG Corrupt ]} None false.

Lemma X_failure_stdout_witness :
  pil_available env_unreadable_output = true /\
  exit_code (run env_unreadable_output) = 1 /\
  exists (pre : list Output) (msg : string),
    (pre = [] \/ pre = [Stdout success_line]) /\
    out (run env_unreadable_output) = pre ++ [Stdout ("Error: " ++ msg)%string].
Proof.
  split; [reflexivity|]. split; [reflexivity|].
  apply X_failure_stdout; reflexivity.
Defined.

(** A source that Pillow cannot identify stops the run at line 8: one read,
    no conversion, no write, the filesystem unchanged, and a single error
    line naming the file. *)
Theorem X_corrupt_source (env : Env) (fm : Format) :
  pil_available env = true ->
  fs0 env !! src_path = Some (mkFile fm Corrupt) ->
  exit_code (run env) = 1 /\ events (run env) = [EvRead src_path] /\
  final_fs (run env) = fs0 env /\
  out (run env) = [Stdout "Error: cannot identify image file 'app_icon.png'"].
Proof.
  intros Hp Hs. revert Hp Hs.
  run_cases env; intros Hp Hs; try discriminate; repeat split.
Qed.

Lemma X_corrupt_source_witness :
  pil_available env_corrupt = true /\
  fs0 env_corrupt !! src_path = Some (mkFile PNG Corrupt) /\
  exit_code (run env_corrupt) = 1 /\ events (run env_corrupt) = [EvRead src_path] /\
  final_fs (run env_corrupt) = fs0 env_corrupt /\
  out (run env_corrupt) = [Stdout "Error: cannot identify image file 'app_icon.png'"].
Proof.
  split; [reflexivity|]. split; [reflexivity|].
  apply (X_corrupt_source _ PNG); reflexivity.
Defined.

(** When [img.save] raises, the run exits with status 1 before line 16:
    the success line is not printed and the output is never re-opened. *)
Theorem X_save_failure (env : Env) (fm : Format) (r : Raster) (fault : SaveFault) :
  pil_available env = true ->
  fs0 env !! src_path = Some (mkFile fm (Decodable r)) ->
  save_fault env = Some fault ->
  exit_code (run env) = 1 /\
  ~ In (Stdout success_line) (out (run env)) /\
  ~ In (EvRead dst_path) (events (run env)).
Proof.
  intros Hp Hs Hf. revert Hp Hs Hf.
  run_cases env; intros Hp Hs Hf; try discriminate;
    (split; [reflexivity|]); simpl; intuition discriminate.
Qed.

Definition env_disk_full : Env :=
  mkEnv true {[ src_path := mkFile PNG (Decodable rgb_2x1) ]}
    (Some SaveFailRemove) false.

Lemma X_save_failure_witness :
  pil_available env_disk_full = true /\
  fs0 env_disk_full !! src_path = Some (mkFile PNG (Decodable rgb_2x1)) /\
  save_fault env_disk_full = Some SaveFailRemove /\
  exit_code (run env_disk_full) = 1 /\
  ~ In (Stdout success_line) (out (run env_disk_full)) /\
  ~ In (EvRead dst_path) (events (run env_disk_full)).
Proof.
  do 3 (split; [reflexivity|]).
  apply (X_save_failure _ PNG rgb_2x1 SaveFailRemove); reflexivity.
Defined.

(** The verification re-open (line 19) comes after the write: when it
    fails, the success line has been printed and the converted PNG stays
    at [app_icon_rgba.png], yet the run exits with status 1. *)
Theorem X_reopen_failure_keeps_output (env : Env) (fm : Format) (r : Raster) :
  pil_available env = true ->
  fs0 env !! src_path = Some (mkFile fm (Decodable r)) ->
  save_fault env = None -> reopen_fault env = true ->
  exit_code (run env) = 1 /\
  In (Stdout success_line) (out (run env)) /\
  final_fs (run env) !! dst_path = Some (mkFile PNG (Decodable (prepare r))).
Proof.
  intros Hp Hs Hf Hr. pose proof (saved_raster env fm r Hp Hs Hf) as Hd.
  revert Hp Hs Hf Hr Hd.
  run_cases env; intros Hp Hs Hf Hr Hd; try discriminate;
    (split; [reflexivity|]); (split; [simpl; auto|exact Hd]).
Qed.

Lemma X_reopen_failure_keeps_output_witness :
  pil_available env_unreadable_output = true /\
  fs0 env_unreadable_output !! src_path = Some (mkFile PNG (Decodable rgb_2x1)) /\
  save_fault env_unreadable_output = None /\ reopen_fault env_unreadable_output = true /\
  exit_code (run env_unreadable_output) = 1 /\
  In (Stdout success_line) (out (run env_unreadable_output)) /\
  final_fs (run env_unreadable_output) !! dst_path =
    Some (mkFile PNG (Decodable (prepare rgb_2x1))).
Proof.
  do 4 (split; [reflexivity|]).
  apply (X_reopen_failure_keeps_output _ PNG); reflexivity.
Defined.

(** When the write succeeds, the run performs, in this order: one read of
    [app_icon.png], the conversion exactly when the mode is not ["RGBA"],
    one write of [app_icon_rgba.png], and one verification read of it. *)
Theorem X_success_event_order (env : Env) (fm : Format) (r : Raster) :
  pil_available env = true ->
  fs0 env !! src_path = Some (mkFile fm (Decodable r)) ->
  save_fault env = None ->
  events (run env) =
    [EvRead src_path] ++
    (if String.eqb (mode_name (mode r)) "RGBA" then [] else [EvConvert]) ++
    [EvWrite dst_path; EvRead dst_path].
Proof.
  intros Hp Hs Hf. revert Hp Hs Hf.
  run_cases env; intros Hp Hs Hf; try discriminate;
    injection Hs as <- <-; rewrite Hmode; reflexivity.
Qed.

Lemma X_success_event_order_witness :
  pil_available (env_ok la_raster) = true /\
  fs0 (env_ok la_raster) !! src_path = Some (mkFile PNG (Decodable la_raster)) /\
  save_fault (env_ok la_raster) = None /\
  events (run (env_ok la_raster)) =
    [EvRead src_path] ++
    (if String.eqb (mode_name (mode la_raster)) "RGBA" then [] else [EvConvert]) ++
    [EvWrite dst_path; EvRead dst_path].
Proof.
  do 3 (split; [reflexivity|]).
  apply (X_success_event_order _ PNG); reflexivity.
Defined.

(** When the write succeeds, the filesystem afterwards is the initial one
    with the converted PNG at [app_icon_rgba.png]. *)
Lemma run_success_fs (env : Env) (fm : Format) (r : Raster) :
  pil_available env = true ->
  fs0 env !! src_path = Some (mkFile fm (Decodable r)) ->
  save_fault env = None ->
  final_fs (run env) = <[dst_path := mkFile PNG (Decodable (prepare r))]> (fs0 env).
Proof.
  intros Hp Hs Hf. revert Hp Hs Hf.
  run_cases env; intros Hp Hs Hf; try discriminate;
    injection Hs as <- <-; unfold prepare; rewrite Hmode; reflexivity.
Qed.

(** Running the script a second time in the directory the first run left
    (with the write succeeding again) changes nothing more: the output is
    rewritten with the same content. *)
Theorem X_rerun_same_directory (env : Env) (fm : Format) (r : Raster) (b : bool) :
  pil_available env = true ->
  fs0 env !! src_path = Some (mkFile fm (Decodable r)) ->
  save_fault env = None ->
  final_fs (run (mkEnv true (final_fs (run env)) None b)) = final_fs (run env).
Proof.
  intros Hp Hs Hf.
  pose proof (run_success_fs env fm r Hp Hs Hf) as H1.
  assert (Hs2 : fs0 (mkEnv true (final_fs (run env)) None b) !! src_path =
                Some (mkFile fm (Decodable r))).
  { cbn [fs0]. rewrite H1, lookup_insert_ne by exact dst_src_ne. exact Hs. }
  rewrite (run_success_fs (mkEnv true (final_fs (run env)) None b) fm r eq_refl Hs2 eq_refl).
  cbn [fs0].
  rewrite H1. apply insert_insert_eq.
Qed.

Lemma X_rerun_same_directory_witness :
  pil_available (env_ok la_raster) = true /\
  fs0 (env_ok la_raster) !! src_path = Some (mkFile PNG (Decodable la_raster)) /\
  save_fault (env_ok la_raster) = None /\
  final_fs (run (mkEnv true (final_fs (run (env_ok la_raster))) None false)) =
    final_fs (run (env_ok la_raster)).
Proof.
  do 3 (split; [reflexivity|]).
  apply (X_rerun_same_directory _ PNG la_raster); reflexivity.
Defined.
